(** * Xoptfoil GUI: the main-window header [src/cpp/mainwindow.h]

    The repository's C++ part is one header.  It declares the class
    [MainWindow], derived from the toolkit class [QMainWindow], with one
    private pointer member and one public constructor.  This development
    embeds

    - the header as text and as a declaration tree, and checks that the two
      agree token for token;
    - the C++ rules the declarations call upon: member access, default
      arguments, derived-to-base conversion, the implicit destructor and
      [#pragma once];
    - the class itself as a record, with construction and destruction as
      state-passing functions over a heap of other objects.

    [QMainWindow] and [QWidget] come from the toolkit headers and the
    constructor's body from another translation unit; they are parameters
    of the semantics. *)

From Stdlib Require Import ZArith Lia Bool Ascii String.
From stdpp Require Import base option list strings gmap.

Local Open Scope string_scope.

(** ** The header, line by line *)

Module Source.

(** [mainwindow.h], one string per line (the last line has no newline). *)
Definition mainwindow_h : list string :=
  [ "#pragma once"
  ; ""
  ; "#include <QWidget>"
  ; "#include <QMainWindow>"
  ; ""
  ; "// Forward declarations"
  ; ""
  ; "class SettingsWindow;"
  ; ""
  ; "/******************************************************************************/"
  ; "//"
  ; "// Header for main window"
  ; "//"
  ; "/******************************************************************************/"
  ; "class MainWindow : public QMainWindow"
  ; "{"
  ; "  private:"
  ; ""
  ; "    // Widgets that may be placed in main window"
  ; ""
  ; "    SettingsWindow *settingswindow;"
  ; ""
  ; "  public:"
  ; " "
  ; "    // Constructor"
  ; ""
  ; "    MainWindow ( QWidget *parent = 0 );"
  ; "};"
  ].

(** The file's characters: the lines joined by newlines. *)
Definition newline : ascii := Ascii.ascii_of_nat 10.

Fixpoint chars (s : string) : list ascii :=
  match s with
  | EmptyString => []
  | String c s' => c :: chars s'
  end.

Fixpoint text (ls : list string) : list ascii :=
  match ls with
  | [] => []
  | [l] => chars l
  | l :: ls' => chars l ++ newline :: text ls'
  end.

End Source.

(** ** Tokens *)

Module Lexer.

Inductive mode := Code | LineComment | BlockComment.

Definition is_space (c : ascii) : bool :=
  let n := Ascii.nat_of_ascii c in
  (n =? 32)%nat || (n =? 9)%nat || (n =? 10)%nat || (n =? 13)%nat.

(** Letters, digits and the underscore make up words. *)
Definition is_word (c : ascii) : bool :=
  let n := Ascii.nat_of_ascii c in
  ((48 <=? n) && (n <=? 57))%nat
  || ((65 <=? n) && (n <=? 90))%nat
  || ((97 <=? n) && (n <=? 122))%nat
  || (n =? 95)%nat.

Fixpoint word (cs : list ascii) : string :=
  match cs with
  | [] => EmptyString
  | c :: cs' => String c (word cs')
  end.

(** Emit the word collected so far, if any. *)
Definition flush (cur : list ascii) (rest : list string) : list string :=
  match cur with
  | [] => rest
  | _ :: _ => word cur :: rest
  end.

(** Comments are skipped, white space separates, every other character
    that is not part of a word is a token of its own. *)
Fixpoint lex (m : mode) (cur : list ascii) (cs : list ascii) : list string :=
  match cs with
  | [] => flush cur []
  | c :: rest =>
    match m with
    | Code =>
      match c, rest with
      | "/"%char, "/"%char :: rest' => flush cur (lex LineComment [] rest')
      | "/"%char, "*"%char :: rest' => flush cur (lex BlockComment [] rest')
      | _, _ =>
        if is_word c then lex Code (cur ++ [c]) rest
        else if is_space c then flush cur (lex Code [] rest)
        else flush cur (String c EmptyString :: lex Code [] rest)
      end
    | LineComment =>
      if Ascii.eqb c Source.newline then lex Code [] rest
      else lex LineComment [] rest
    | BlockComment =>
      match c, rest with
      | "*"%char, "/"%char :: rest' => lex Code [] rest'
      | _, _ => lex BlockComment [] rest
      end
    end
  end.

Definition tokens (ls : list string) : list string :=
  lex Code [] (Source.text ls).

End Lexer.

(** ** Declarations *)

Module Syntax.

Inductive access := Public | Protected | Private.

Inductive class_key := KClass | KStruct.

Inductive type :=
| TNamed (name : string)
| TPtr (pointee : type)
| TRef (referee : type)
| TConst (t : type).

(** Initialisers of default arguments. *)
Inductive expr :=
| EInt (z : Z)
| EName (name : string).

Record param := Param
  { p_type : type
  ; p_name : string
  ; p_default : option expr }.

(** A member function that is only declared has no body; the tokens of a
    body are kept as they are. *)
Inductive member :=
| Field (ty : type) (name : string)
| StaticField (ty : type) (name : string)
| Ctor (cls : string) (params : list param)
       (throws : option (list type)) (body : option (list string))
| Dtor (cls : string)
       (throws : option (list type)) (body : option (list string))
| Method (ret : type) (name : string) (params : list param)
         (throws : option (list type)) (body : option (list string)).

(** What stands between the braces of a class, in order. *)
Inductive body_item :=
| Label (a : access)
| Member (m : member)
| Friend (name : string).

Record class_decl := Class
  { c_key : class_key
  ; c_name : string
  ; c_bases : list (option access * string)
  ; c_body : list body_item }.

(** What stands at the top level of a header. *)
Inductive item :=
| PragmaOnce
| Include (header : string)
| ForwardClass (name : string)
| ClassDef (c : class_decl)
| FreeFunction (ret : type) (qualifier : option string) (name : string)
               (params : list param) (body : option (list string))
| GlobalVar (ty : type) (name : string).

(** *** [mainwindow.h] *)

Definition QWidget_ptr : type := TPtr (TNamed "QWidget").
Definition SettingsWindow_ptr : type := TPtr (TNamed "SettingsWindow").

(** [MainWindow ( QWidget *parent = 0 );] *)
Definition MainWindow_ctor : member :=
  Ctor "MainWindow"
       [ Param QWidget_ptr "parent" (Some (EInt 0)) ]
       None None.

(** [SettingsWindow *settingswindow;] *)
Definition settingswindow_field : member :=
  Field SettingsWindow_ptr "settingswindow".

Definition MainWindow_class : class_decl :=
  {| c_key := KClass
   ; c_name := "MainWindow"
   ; c_bases := [ (Some Public, "QMainWindow") ]
   ; c_body :=
       [ Label Private
       ; Member settingswindow_field
       ; Label Public
       ; Member MainWindow_ctor ] |}.

Definition mainwindow_h : list item :=
  [ PragmaOnce
  ; Include "QWidget"
  ; Include "QMainWindow"
  ; ForwardClass "SettingsWindow"
  ; ClassDef MainWindow_class ].

End Syntax.

(** ** Writing declarations out as tokens *)

Module Printer.
Import Syntax.

Definition access_word (a : access) : string :=
  match a with
  | Public => "public"
  | Protected => "protected"
  | Private => "private"
  end.

Definition key_word (k : class_key) : string :=
  match k with KClass => "class" | KStruct => "struct" end.

(** Decimal digits of a natural number, with fuel. *)
Fixpoint digits (fuel n : nat) (acc : string) : string :=
  match fuel with
  | O => acc
  | S fuel' =>
    let d := Ascii.ascii_of_nat (48 + n mod 10) in
    let acc' := String d acc in
    if (n / 10 =? 0)%nat then acc' else digits fuel' (n / 10) acc'
  end.

Definition nat_word (n : nat) : string := digits (S n) n EmptyString.

Definition expr_tokens (e : expr) : list string :=
  match e with
  | EInt z =>
    if (z <? 0)%Z then [ "-"; nat_word (Z.to_nat (- z)) ]
    else [ nat_word (Z.to_nat z) ]
  | EName n => [ n ]
  end.

(** Declarator syntax for the types at hand: qualifiers and the base
    name first, then one [*] or [&] per level. *)
Fixpoint type_tokens (t : type) : list string :=
  match t with
  | TNamed n => [ n ]
  | TPtr t' => type_tokens t' ++ [ "*" ]
  | TRef t' => type_tokens t' ++ [ "&" ]
  | TConst t' => "const" :: type_tokens t'
  end.

Definition param_tokens (p : param) : list string :=
  type_tokens (p_type p) ++ [ p_name p ]
  ++ match p_default p with
     | Some e => "=" :: expr_tokens e
     | None => []
     end.

Fixpoint params_tokens (ps : list param) : list string :=
  match ps with
  | [] => []
  | [p] => param_tokens p
  | p :: ps' => param_tokens p ++ "," :: params_tokens ps'
  end.

Fixpoint types_tokens (ts : list type) : list string :=
  match ts with
  | [] => []
  | [t] => type_tokens t
  | t :: ts' => type_tokens t ++ "," :: types_tokens ts'
  end.

Definition throws_tokens (th : option (list type)) : list string :=
  match th with
  | Some ts => [ "throw"; "(" ] ++ types_tokens ts ++ [ ")" ]
  | None => []
  end.

Definition body_tokens (b : option (list string)) : list string :=
  match b with
  | Some toks => "{" :: toks ++ [ "}" ]
  | None => [ ";" ]
  end.

Definition member_tokens (m : member) : list string :=
  match m with
  | Field ty n => type_tokens ty ++ [ n; ";" ]
  | StaticField ty n => "static" :: type_tokens ty ++ [ n; ";" ]
  | Ctor cls ps th b =>
    [ cls; "(" ] ++ params_tokens ps ++ [ ")" ]
    ++ throws_tokens th ++ body_tokens b
  | Dtor cls th b =>
    [ "~"; cls; "("; ")" ] ++ throws_tokens th ++ body_tokens b
  | Method ret n ps th b =>
    type_tokens ret ++ [ n; "(" ] ++ params_tokens ps ++ [ ")" ]
    ++ throws_tokens th ++ body_tokens b
  end.

Definition body_item_tokens (b : body_item) : list string :=
  match b with
  | Label a => [ access_word a; ":" ]
  | Member m => member_tokens m
  | Friend n => [ "friend"; "class"; n; ";" ]
  end.

Definition base_tokens (b : option access * string) : list string :=
  match fst b with
  | Some a => [ access_word a; snd b ]
  | None => [ snd b ]
  end.

Fixpoint bases_tokens (bs : list (option access * string)) : list string :=
  match bs with
  | [] => []
  | [b] => base_tokens b
  | b :: bs' => base_tokens b ++ "," :: bases_tokens bs'
  end.

Definition class_tokens (c : class_decl) : list string :=
  [ key_word (c_key c); c_name c ]
  ++ match c_bases c with
     | [] => []
     | bs => ":" :: bases_tokens bs
     end
  ++ [ "{" ] ++ concat (map body_item_tokens (c_body c)) ++ [ "}"; ";" ].

Definition item_tokens (i : item) : list string :=
  match i with
  | PragmaOnce => [ "#"; "pragma"; "once" ]
  | Include h => [ "#"; "include"; "<"; h; ">" ]
  | ForwardClass n => [ "class"; n; ";" ]
  | ClassDef c => class_tokens c
  | FreeFunction ret q n ps b =>
    type_tokens ret
    ++ match q with Some cls => [ cls; ":"; ":" ] | None => [] end
    ++ [ n; "(" ] ++ params_tokens ps ++ [ ")" ] ++ body_tokens b
  | GlobalVar ty n => type_tokens ty ++ [ n; ";" ]
  end.

Definition tokens (u : list item) : list string :=
  concat (map item_tokens u).

End Printer.

(** ** What a header declares *)

Module Decl.
Import Syntax.

Definition access_eqb (a b : access) : bool :=
  match a, b with
  | Public, Public | Protected, Protected | Private, Private => true
  | _, _ => false
  end.

(** Members of a [class] are private, members of a [struct] public, until
    a label says otherwise; the same holds for a base without a keyword. *)
Definition default_access (k : class_key) : access :=
  match k with KClass => Private | KStruct => Public end.

(** Every member with the access in force where it stands. *)
Fixpoint scan (cur : access) (b : list body_item) : list (access * member) :=
  match b with
  | [] => []
  | Label a :: b' => scan a b'
  | Member m :: b' => (cur, m) :: scan cur b'
  | Friend _ :: b' => scan cur b'
  end.

Definition members (c : class_decl) : list (access * member) :=
  scan (default_access (c_key c)) (c_body c).

Fixpoint friends_in (b : list body_item) : list string :=
  match b with
  | [] => []
  | Friend n :: b' => n :: friends_in b'
  | _ :: b' => friends_in b'
  end.

Definition friends (c : class_decl) : list string := friends_in (c_body c).

Definition bases (c : class_decl) : list (access * string) :=
  map (fun b => (from_option id (default_access (c_key c)) (fst b), snd b))
      (c_bases c).

Definition is_field (m : member) : bool :=
  match m with Field _ _ => true | _ => false end.

Definition is_static_field (m : member) : bool :=
  match m with StaticField _ _ => true | _ => false end.

Definition is_operation (m : member) : bool :=
  match m with
  | Ctor _ _ _ _ | Dtor _ _ _ | Method _ _ _ _ _ => true
  | Field _ _ | StaticField _ _ => false
  end.

Definition is_ctor (m : member) : bool :=
  match m with Ctor _ _ _ _ => true | _ => false end.

Definition is_dtor (m : member) : bool :=
  match m with Dtor _ _ _ => true | _ => false end.

Definition is_method (m : member) : bool :=
  match m with Method _ _ _ _ _ => true | _ => false end.

Definition with_access (a : access) (c : class_decl) : list member :=
  map snd (List.filter (fun am => access_eqb (fst am) a) (members c)).

(** The public members the class declares itself. *)
Definition public_members (c : class_decl) : list member :=
  with_access Public c.

(** The non-static data members, each with its access. *)
Definition data_members (c : class_decl) : list (access * member) :=
  List.filter (fun am => is_field (snd am)) (members c).

(** The member functions, constructors and destructors included. *)
Definition operations (c : class_decl) : list member :=
  List.filter is_operation (map snd (members c)).

Definition member_body (m : member) : option (list string) :=
  match m with
  | Ctor _ _ _ b | Dtor _ _ b | Method _ _ _ _ b => b
  | Field _ _ | StaticField _ _ => None
  end.

(** Member functions defined inside the class. *)
Definition defined_inline (c : class_decl) : list member :=
  List.filter (fun m => bool_decide (is_Some (member_body m))) (operations c).

(** *** Failure modes a declaration can announce *)

Definition is_void (t : type) : bool :=
  match t with TNamed n => String.eqb n "void" | _ => false end.

(** The value an operation hands back: constructors and destructors have
    none, nor has a method returning [void]. *)
Definition result_type (m : member) : option type :=
  match m with
  | Method ret _ _ _ _ => if is_void ret then None else Some ret
  | _ => None
  end.

Definition exception_spec (m : member) : option (list type) :=
  match m with
  | Ctor _ _ th _ | Dtor _ th _ | Method _ _ _ th _ => th
  | Field _ _ | StaticField _ _ => None
  end.

(** A constructor or method without exception specification may throw
    anything, one with [throw(T)] a [T]; only [throw()] promises that
    nothing is thrown.  A destructor without specification takes over what
    the destructors of the bases and members promise, which the class does
    not show: it counts as throwing only where it says so. *)
Definition potentially_throwing (m : member) : bool :=
  match m with
  | Ctor _ _ th _ | Method _ _ _ th _ =>
    match th with Some [] => false | _ => true end
  | Dtor _ th _ =>
    match th with Some (_ :: _) => true | _ => false end
  | Field _ _ | StaticField _ _ => false
  end.

(** *** Special members *)

Definition declared_dtor (c : class_decl) : option member :=
  List.find is_dtor (map snd (members c)).

Definition is_self_ref (cls : string) (t : type) : bool :=
  match t with
  | TRef (TConst (TNamed n)) | TRef (TNamed n) => String.eqb n cls
  | _ => false
  end.

Definition has_default (p : param) : bool :=
  bool_decide (is_Some (p_default p)).

(** A constructor callable with one argument of the class's own
    reference type. *)
Definition is_copy_ctor (cls : string) (m : member) : bool :=
  match m with
  | Ctor _ (p :: ps) _ _ => is_self_ref cls (p_type p) && forallb has_default ps
  | _ => false
  end.

Definition is_copy_assign (cls : string) (m : member) : bool :=
  match m with
  | Method _ n [p] _ _ => String.eqb n "operator=" && is_self_ref cls (p_type p)
  | _ => false
  end.

Definition declared_copy_ctor (c : class_decl) : option member :=
  List.find (is_copy_ctor (c_name c)) (map snd (members c)).

Definition declared_copy_assign (c : class_decl) : option member :=
  List.find (is_copy_assign (c_name c)) (map snd (members c)).

(** *** The top level *)

Fixpoint classes (u : list item) : list class_decl :=
  match u with
  | [] => []
  | ClassDef c :: u' => c :: classes u'
  | _ :: u' => classes u'
  end.

Fixpoint forward_classes (u : list item) : list string :=
  match u with
  | [] => []
  | ForwardClass n :: u' => n :: forward_classes u'
  | _ :: u' => forward_classes u'
  end.

Fixpoint includes (u : list item) : list string :=
  match u with
  | [] => []
  | Include h :: u' => h :: includes u'
  | _ :: u' => includes u'
  end.

Definition is_free_function (i : item) : bool :=
  match i with FreeFunction _ _ _ _ _ => true | _ => false end.

Definition is_global_variable (i : item) : bool :=
  match i with GlobalVar _ _ => true | _ => false end.

Definition is_pragma_once (i : item) : bool :=
  match i with PragmaOnce => true | _ => false end.

(** Functions declared or defined outside a class, the out-of-class
    definitions of member functions among them. *)
Definition free_functions (u : list item) : list item :=
  List.filter is_free_function u.

Definition global_variables (u : list item) : list item :=
  List.filter is_global_variable u.

Definition static_members (c : class_decl) : list member :=
  List.filter is_static_field (map snd (members c)).

Definition find_class (u : list item) (name : string) : option class_decl :=
  List.find (fun c => String.eqb (c_name c) name) (classes u).

(** A class is complete once its definition has been seen. *)
Definition is_complete (u : list item) (name : string) : bool :=
  bool_decide (is_Some (find_class u name)).

(** The kinds of thing a header can hold. *)
Inductive item_kind := Directive | ForwardDeclaration | ClassDefinition | Other.

Definition kind_of (i : item) : item_kind :=
  match i with
  | PragmaOnce | Include _ => Directive
  | ForwardClass _ => ForwardDeclaration
  | ClassDef _ => ClassDefinition
  | FreeFunction _ _ _ _ _ | GlobalVar _ _ => Other
  end.

End Decl.

(** ** Where a type is named *)

Module Uses.
Import Syntax Decl.

(** The class or built-in type a declarator is built on. *)
Fixpoint base_name (t : type) : string :=
  match t with
  | TNamed n => n
  | TPtr t' | TRef t' | TConst t' => base_name t'
  end.

(** The places of a header where a type can stand. *)
Inductive site :=
| AsBase (cls : string)
| AsField (cls : string) (a : access) (field : string) (ty : type)
| AsParam (owner : option string) (fn : string) (pname : string) (ty : type)
| AsResult (owner : option string) (fn : string) (ty : type)
| AsThrown (owner : string) (ty : type)
| AsFriend (cls : string)
| AsVariable (name : string) (ty : type).

Definition param_sites (owner : option string) (fn : string)
    (ps : list param) : list (string * site) :=
  map (fun p => (base_name (p_type p), AsParam owner fn (p_name p) (p_type p))) ps.

Definition thrown_sites (cls : string) (th : option (list type))
    : list (string * site) :=
  map (fun t => (base_name t, AsThrown cls t)) (from_option id [] th).

Definition member_sites (cls : string) (am : access * member)
    : list (string * site) :=
  match snd am with
  | Field ty n | StaticField ty n => [ (base_name ty, AsField cls (fst am) n ty) ]
  | Ctor k ps th _ => param_sites (Some cls) k ps ++ thrown_sites cls th
  | Dtor _ th _ => thrown_sites cls th
  | Method ret n ps th _ =>
    (base_name ret, AsResult (Some cls) n ret)
    :: param_sites (Some cls) n ps ++ thrown_sites cls th
  end.

Definition class_sites (c : class_decl) : list (string * site) :=
  map (fun b => (snd b, AsBase (c_name c))) (c_bases c)
  ++ map (fun n => (n, AsFriend (c_name c))) (friends c)
  ++ concat (map (member_sites (c_name c)) (members c)).

Definition item_sites (i : item) : list (string * site) :=
  match i with
  | PragmaOnce | Include _ | ForwardClass _ => []
  | ClassDef c => class_sites c
  | FreeFunction ret q n ps _ =>
    (base_name ret, AsResult q n ret) :: param_sites q n ps
  | GlobalVar ty n => [ (base_name ty, AsVariable n ty) ]
  end.

(** Every place in the header where the type [name] is used; a forward
    declaration introduces the name and is not a use. *)
Definition uses_of (u : list item) (name : string) : list site :=
  map snd (List.filter (fun ns => String.eqb (fst ns) name)
                       (concat (map item_sites u))).

(** A member of class type needs the complete class; a pointer or a
    reference to it does not. *)
Fixpoint needs_complete (t : type) : option string :=
  match t with
  | TNamed n => Some n
  | TPtr _ | TRef _ => None
  | TConst t' => needs_complete t'
  end.

End Uses.

(** ** Member access *)

Module Access.
Import Syntax Decl.

(** Where the code that names a member stands. *)
Inductive context :=
| InMemberOf (cls : string)
| InFunction (fn : string).

Definition in_class (name : string) (ctx : context) : bool :=
  match ctx with
  | InMemberOf k => String.eqb k name
  | InFunction _ => false
  end.

Definition is_friend (c : class_decl) (ctx : context) : bool :=
  match ctx with
  | InMemberOf k => existsb (String.eqb k) (friends c)
  | InFunction _ => false
  end.

(** [d] has [b] among its direct or indirect bases, as far as the header
    [u] defines the classes on the way. *)
Fixpoint derives (fuel : nat) (u : list item) (d b : string) : bool :=
  match fuel with
  | O => false
  | S fuel' =>
    match find_class u d with
    | None => false
    | Some c =>
      existsb (fun ab => String.eqb (snd ab) b || derives fuel' u (snd ab) b)
              (bases c)
    end
  end.

Definition in_derived (u : list item) (name : string) (ctx : context) : bool :=
  match ctx with
  | InMemberOf k => derives (length u) u k name
  | InFunction _ => false
  end.

(** May code standing at [ctx] name a member of [c] declared with
    access [a]? *)
Definition may_access (u : list item) (c : class_decl) (a : access)
    (ctx : context) : bool :=
  match a with
  | Public => true
  | Protected =>
    in_class (c_name c) ctx || is_friend c ctx || in_derived u (c_name c) ctx
  | Private => in_class (c_name c) ctx || is_friend c ctx
  end.

Definition member_name (m : member) : string :=
  match m with
  | Field _ n | StaticField _ n | Method _ n _ _ _ => n
  | Ctor cls _ _ _ => cls
  | Dtor cls _ _ => "~" ++ cls
  end.

(** The access under which the class declares the member [name]. *)
Definition access_of (c : class_decl) (name : string) : option access :=
  option_map fst
    (List.find (fun am => String.eqb (member_name (snd am)) name) (members c)).

(** May code standing at [ctx] read or write [w.name] for a [w] of
    class [c]? *)
Definition can_name (u : list item) (c : class_decl) (name : string)
    (ctx : context) : bool :=
  match access_of c name with
  | Some a => may_access u c a ctx
  | None => false
  end.

(** A pointer to [c] converts to a pointer to [b] where [b] is a base
    of [c] that the context may name. *)
Definition converts_to_base (u : list item) (c : class_decl) (b : string)
    (ctx : context) : bool :=
  existsb (fun ab => String.eqb (snd ab) b && may_access u c (fst ab) ctx)
          (bases c).

(** Constructors and destructors are not inherited. *)
Definition inheritable (m : member) : bool := negb (is_ctor m || is_dtor m).

(** What code outside the class can call or name on an object of the
    class: the public members the class declares, and the public members
    of its public bases.  [base_public] gives the public members of a
    class that the header does not define. *)
Definition public_interface (base_public : string -> list member)
    (c : class_decl) : list member :=
  public_members c
  ++ concat (map (fun ab =>
                    match fst ab with
                    | Public => List.filter inheritable (base_public (snd ab))
                    | _ => []
                    end)
                 (bases c)).

End Access.

(** ** Inclusion *)

Module Preprocessor.
Import Syntax.

(** What translation has gathered so far: the files that asked to be read
    once only, and the declarations seen, in order. *)
Record state := State
  { once : list string
  ; seen : list item }.

Definition start : state := {| once := []; seen := [] |}.

(** Reading the body of [file]: [#pragma once] marks the file, everything
    else is passed on (a toolkit header stays an [Include]). *)
Fixpoint process (file : string) (body : list item) (st : state) : state :=
  match body with
  | [] => st
  | PragmaOnce :: rest =>
    process file rest {| once := file :: once st; seen := seen st |}
  | i :: rest =>
    process file rest {| once := once st; seen := seen st ++ [i] |}
  end.

(** [#include "file"]: a file marked once is skipped. *)
Definition include (file : string) (body : list item) (st : state) : state :=
  if existsb (String.eqb file) (once st) then st
  else process file body st.

Fixpoint include_n (n : nat) (file : string) (body : list item)
    (st : state) : state :=
  match n with
  | O => st
  | S n' => include_n n' file body (include file body st)
  end.

Definition definitions_of (name : string) (u : list item) : list class_decl :=
  List.filter (fun c => String.eqb (c_name c) name) (Decl.classes u).

(** The header without its guard, to compare with. *)
Definition unguarded (body : list item) : list item :=
  List.filter (fun i => negb (Decl.is_pragma_once i)) body.

End Preprocessor.

(** ** Objects, construction and destruction *)

Module Semantics.
Import Syntax Decl.

Definition addr := positive.

(** A pointer is an address or null. *)
Definition ptr := option addr.
Definition null : ptr := None.

Inductive value :=
| VInt (z : Z)
| VPtr (p : ptr).

Definition is_builtin (n : string) : bool :=
  existsb (String.eqb n)
          [ "bool"; "char"; "short"; "int"; "long"; "float"; "double" ].

(** The value of a default argument, converted to the parameter's type:
    the literal [0] is the null pointer constant. *)
Definition eval_default (ty : type) (e : expr) : option value :=
  match e with
  | EInt z =>
    match ty with
    | TPtr _ => if (z =? 0)%Z then Some (VPtr null) else None
    | TNamed n => if is_builtin n then Some (VInt z) else None
    | _ => None
    end
  | EName _ => None
  end.

Definition accepts (ty : type) (v : value) : bool :=
  match ty, v with
  | TPtr _, VPtr _ => true
  | TNamed n, VInt _ => is_builtin n
  | _, _ => false
  end.

(** Arguments are matched with parameters from the left; parameters left
    over take their defaults. *)
Fixpoint bind_args (ps : list param) (args : list value)
    : option (list value) :=
  match ps, args with
  | [], [] => Some []
  | [], _ :: _ => None
  | p :: ps', a :: args' =>
    if accepts (p_type p) a
    then option_map (cons a) (bind_args ps' args')
    else None
  | p :: ps', [] =>
    match p_default p with
    | Some e =>
      match eval_default (p_type p) e, bind_args ps' [] with
      | Some v, Some vs => Some (v :: vs)
      | _, _ => None
      end
    | None => None
    end
  end.

Fixpoint constructors_in (ms : list (access * member)) : list (list param) :=
  match ms with
  | [] => []
  | (_, Ctor _ ps _ _) :: ms' => ps :: constructors_in ms'
  | _ :: ms' => constructors_in ms'
  end.

Definition constructors (c : class_decl) : list (list param) :=
  constructors_in (members c).

(** The first declared constructor the arguments fit, with the values
    its parameters receive. *)
Fixpoint first_viable (cs : list (list param)) (args : list value)
    : option (list value) :=
  match cs with
  | [] => None
  | ps :: cs' =>
    match bind_args ps args with
    | Some vs => Some vs
    | None => first_viable cs' args
    end
  end.

Definition resolve (c : class_decl) (args : list value) : option (list value) :=
  first_viable (constructors c) args.

(** The arguments of [MainWindow()] and of [MainWindow(p)]. *)
Definition args_of (parent : option ptr) : list value :=
  match parent with
  | None => []
  | Some p => [ VPtr p ]
  end.

Fixpoint trivially_destructible (t : type) : bool :=
  match t with
  | TPtr _ | TRef _ => true
  | TNamed n => is_builtin n
  | TConst t' => trivially_destructible t'
  end.

Definition field_trivial (am : access * member) : bool :=
  match snd am with
  | Field ty _ => trivially_destructible ty
  | _ => true
  end.

Section Objects.
(** [O] is the state of an object other than the window (a widget, the
    settings window), [B] the state of the [QMainWindow] part. *)
Context {O B : Type}.

(** class MainWindow : public QMainWindow { SettingsWindow *settingswindow; } *)
Record MainWindow := MkMainWindow
  { base : B
  ; settingswindow : ptr }.

Definition upcast (w : MainWindow) : B := base w.

Definition to_pair (w : MainWindow) : B * ptr := (base w, settingswindow w).
Definition of_pair (p : B * ptr) : MainWindow :=
  {| base := fst p; settingswindow := snd p |}.

(** What [MainWindow::MainWindow(QWidget *parent)] does on the storage at
    [this], base-class initialisation included: the header declares it
    and leaves the definition to another file. *)
Variable ctor_body : addr -> ptr -> gmap addr O -> MainWindow * gmap addr O.

(** A constructor call: the declaration decides which values the
    parameters receive, the body does the rest. *)
Definition construct (this : addr) (args : list value) (h : gmap addr O)
    : option (MainWindow * gmap addr O) :=
  match resolve MainWindow_class args with
  | Some [ VPtr parent ] => Some (ctor_body this parent h)
  | _ => None
  end.

(** The toolkit's [QMainWindow::~QMainWindow()]. *)
Variable QMainWindow_dtor : B -> gmap addr O -> gmap addr O.

(** Destruction with the destructor the compiler supplies when the class
    declares none: an empty body, then the members (a pointer has
    nothing to run and its pointee is left alone), then the base. *)
Definition destroy (w : MainWindow) (h : gmap addr O)
    : option (gmap addr O) :=
  match declared_dtor MainWindow_class with
  | Some _ => None
  | None =>
    if forallb field_trivial (data_members MainWindow_class)
    then Some (QMainWindow_dtor (base w) h)
    else None
  end.

End Objects.

Arguments MainWindow : clear implicits.

(** How a function call ends: with its result, or with an exception, named
    by its type. *)
Inductive outcome (A : Type) :=
| Returned (a : A)
| Thrown (exception : string).

Arguments Returned {A} a.
Arguments Thrown {A} exception.

(** A constructor call with a body that yields an [R] of any kind, an
    [outcome] for one; the declaration decides which values the parameters
    receive, as in [construct]. *)
Definition call_constructor {O R : Type}
    (body : addr -> ptr -> gmap addr O -> R)
    (this : addr) (args : list value) (h : gmap addr O) : option R :=
  match resolve MainWindow_class args with
  | Some [ VPtr parent ] => Some (body this parent h)
  | _ => None
  end.

End Semantics.

(** ** A toolkit with object trees *)

Module QtLike.
Import Syntax Semantics.

(** The toolkit keeps widgets in trees: a widget constructed with a parent
    joins the parent's children, and a widget that is destroyed takes its
    children with it.  Only that much of it is written down here. *)
Record qobject := QObject { q_children : list addr }.

Definition add_child (child : addr) (o : qobject) : qobject :=
  {| q_children := child :: q_children o |}.

(** The base part of a window remembers the window's children. *)
Definition QMainWindow_ctor (this : addr) (parent : ptr)
    (h : gmap addr qobject) : list addr * gmap addr qobject :=
  ([], match parent with
       | Some p => alter (add_child this) p h
       | None => h
       end).

Definition QMainWindow_dtor (children : list addr)
    (h : gmap addr qobject) : gmap addr qobject :=
  foldr delete h children.

(** [void setCentralWidget(QWidget *widget);] stands for the public
    members of the toolkit's window class. *)
Definition setCentralWidget : member :=
  Method (TNamed "void") "setCentralWidget"
         [ Param QWidget_ptr "widget" None ] None None.

Definition base_public (cls : string) : list member :=
  if String.eqb cls "QMainWindow" then [ setCentralWidget ] else [].

(** A parent widget at address 1; a settings window at address 7 that is
    a child of the main window pointing to it. *)
Definition parent_only : gmap addr qobject :=
  {[ 1%positive := QObject [] ]}.

Definition settings_only : gmap addr qobject :=
  {[ 7%positive := QObject [] ]}.

Definition window_owning_settings : MainWindow (list addr) :=
  {| base := [ 7%positive ]; settingswindow := Some 7%positive |}.

(** The same pointer in a window that has no children. *)
Definition window_without_children : MainWindow (list addr) :=
  {| base := []; settingswindow := Some 7%positive |}.

(** Two constructor bodies that fit the declaration.  The first is
    [MainWindow::MainWindow(QWidget *parent) : QMainWindow(parent) {}]: it
    initialises the base with the parent and leaves the pointer null.  The
    second stands for a body whose [new SettingsWindow] finds no memory. *)
Definition forwarding_body (this : addr) (parent : ptr)
    (h : gmap addr qobject) : MainWindow (list addr) * gmap addr qobject :=
  let bh := QMainWindow_ctor this parent h in
  ({| base := fst bh; settingswindow := null |}, snd bh).

Definition out_of_memory_body (this : addr) (parent : ptr)
    (h : gmap addr qobject)
    : outcome (MainWindow (list addr) * gmap addr qobject) :=
  Thrown "std::bad_alloc".

End QtLike.

(** ** Names in scope *)

Module Scope.
Import Syntax Decl.

(** The class names translation knows at some point: those that are only
    declared, those the unit has defined itself, and those the toolkit
    headers read so far define.  The toolkit's headers are guarded and
    agree with each other, so that reading them again or together defines
    each of their classes once. *)
Record names := Names
  { declared : list string
  ; own : list string
  ; toolkit : list string }.

Definition nothing : names := {| declared := []; own := []; toolkit := [] |}.

Definition mem (n : string) (l : list string) : bool :=
  existsb (String.eqb n) l.

Definition is_defined (k : names) (n : string) : bool :=
  Semantics.is_builtin n || mem n (own k) || mem n (toolkit k).

Definition is_known (k : names) (n : string) : bool :=
  String.eqb n "void" || mem n (declared k) || is_defined k n.

Definition has_body (b : option (list string)) : bool :=
  match b with Some _ => true | None => false end.

(** Where an object of the type is laid out, its class must be defined
    unless it is reached through a pointer or a reference; elsewhere the
    name must be known. *)
Definition type_ok (k : names) (laid_out : bool) (t : type) : bool :=
  match (if laid_out then Uses.needs_complete t else None) with
  | Some n => is_defined k n
  | None => is_known k (Uses.base_name t)
  end.

Definition params_ok (k : names) (laid_out : bool) (ps : list param) : bool :=
  forallb (fun p => type_ok k laid_out (p_type p)) ps.

Definition throws_ok (k : names) (th : option (list type)) : bool :=
  forallb (type_ok k true) (from_option id [] th).

(** A data member is laid out in the class; the signature of a member
    function that is only declared names its types, and one that is defined
    in the class is read as if it stood after the class. *)
Definition member_ok (inside after : names) (m : member) : bool :=
  match m with
  | Field ty _ => type_ok inside true ty
  | StaticField ty _ => type_ok inside false ty
  | Ctor _ ps th b =>
    (if has_body b then params_ok after true ps else params_ok inside false ps)
    && throws_ok inside th
  | Dtor _ th _ => throws_ok inside th
  | Method ret _ ps th b =>
    (if has_body b
     then type_ok after true ret && params_ok after true ps
     else type_ok inside false ret && params_ok inside false ps)
    && throws_ok inside th
  end.

Definition body_item_ok (inside after : names) (b : body_item) : bool :=
  match b with
  | Member m => member_ok inside after m
  | Label _ | Friend _ => true
  end.

(** A class may be defined once, by the unit or by the toolkit; its bases
    must be defined; between its braces its own name is declared and not
    yet defined. *)
Definition class_ok (k : names) (c : class_decl) : bool :=
  negb (mem (c_name c) (own k) || mem (c_name c) (toolkit k))
  && forallb (fun b => is_defined k (snd b)) (c_bases c)
  && forallb (body_item_ok
                {| declared := c_name c :: declared k
                 ; own := own k; toolkit := toolkit k |}
                {| declared := declared k
                 ; own := c_name c :: own k; toolkit := toolkit k |})
             (c_body c).

(** One item read with the names [k] known: the names known afterwards, or
    nothing where the item is ill-formed.  [provides] gives the classes a
    toolkit header defines; a header that defines a class the unit has
    defined itself defines it again. *)
Definition step (provides : string -> list string) (k : names) (i : item)
    : option names :=
  match i with
  | PragmaOnce => Some k
  | Include h =>
    if existsb (fun c => mem c (own k)) (provides h)
    then None
    else Some {| declared := declared k; own := own k
               ; toolkit := provides h ++ toolkit k |}
  | ForwardClass n =>
    Some {| declared := n :: declared k; own := own k; toolkit := toolkit k |}
  | ClassDef c =>
    if class_ok k c
    then Some {| declared := declared k; own := c_name c :: own k
               ; toolkit := toolkit k |}
    else None
  | FreeFunction ret q _ ps b =>
    if match q with Some cls => is_defined k cls | None => true end
       && type_ok k (has_body b) ret && params_ok k (has_body b) ps
    then Some k
    else None
  | GlobalVar ty _ => if type_ok k true ty then Some k else None
  end.

Fixpoint check (provides : string -> list string) (k : names)
    (u : list item) : option names :=
  match u with
  | [] => Some k
  | i :: u' =>
    match step provides k i with
    | Some k' => check provides k' u'
    | None => None
    end
  end.

Definition well_formed (provides : string -> list string) (k : names)
    (u : list item) : bool :=
  match check provides k u with Some _ => true | None => false end.

(** A toolkit header defines the class it is named after. *)
Definition by_name (h : string) : list string := [ h ].

(** The header without the forward declaration, and with the settings
    window held by value, to compare with. *)
Definition without_forward (u : list item) : list item :=
  List.filter (fun i => match i with ForwardClass _ => false | _ => true end) u.

Definition by_value : list item :=
  [ Include "QWidget"
  ; Include "QMainWindow"
  ; ForwardClass "SettingsWindow"
  ; ClassDef
      {| c_key := KClass
       ; c_name := "MainWindow"
       ; c_bases := [ (Some Public, "QMainWindow") ]
       ; c_body :=
           [ Label Private
           ; Member (Field (TNamed "SettingsWindow") "settingswindow")
           ; Label Public
           ; Member MainWindow_ctor ] |} ].

End Scope.

(** * Properties *)

Import Syntax Decl.

(** ** Text and tree *)

(** The declaration tree is the header: both give the same tokens. *)
Lemma mainwindow_h_tokens :
  Lexer.tokens Source.mainwindow_h = Printer.tokens Syntax.mainwindow_h.
Proof. vm_compute. reflexivity. Qed.

Lemma mainwindow_h_newlines :
  length (List.filter (Ascii.eqb Source.newline)
                      (Source.text Source.mainwindow_h)) = 27%nat.
Proof. vm_compute. reflexivity. Qed.

(** The class is well formed although [SettingsWindow] is incomplete: no
    data member needs a complete class. *)
Lemma MainWindow_fields_need_no_definition :
  Forall (fun am =>
            match snd am with
            | Field ty _ => Uses.needs_complete ty = None
            | _ => True
            end)
         (data_members MainWindow_class).
Proof. repeat constructor. Qed.

(** ** Access *)

Section AccessFacts.
Import Access.

Lemma private_needs_class_or_friend u c ctx :
  may_access u c Private ctx = true ->
  in_class (c_name c) ctx = true \/ is_friend c ctx = true.
Proof. cbn. apply orb_prop. Qed.

Lemma MainWindow_has_no_friends : friends MainWindow_class = [].
Proof. reflexivity. Qed.

Lemma settingswindow_access ctx :
  can_name mainwindow_h MainWindow_class "settingswindow" ctx
  = in_class "MainWindow" ctx.
Proof.
  destruct ctx as [k | fn]; cbn; [ | reflexivity ].
  now rewrite orb_false_r.
Qed.

(** Inherited members come after the declared ones, whatever the base
    offers. *)
Lemma public_interface_MainWindow base_public :
  public_interface base_public MainWindow_class
  = MainWindow_ctor :: List.filter inheritable (base_public "QMainWindow").
Proof.
  unfold public_interface. cbn. now rewrite app_nil_r.
Qed.

(** Access widens from private over protected to public. *)
Lemma private_then_protected u c ctx :
  may_access u c Private ctx = true -> may_access u c Protected ctx = true.
Proof.
  cbn. intros H. apply orb_true_iff. now left.
Qed.

Lemma public_everywhere u c ctx : may_access u c Public ctx = true.
Proof. reflexivity. Qed.

(** A private base would hide the conversion from code outside the class;
    the header's [public] is what opens it. *)
Lemma private_base_is_hidden fn :
  converts_to_base mainwindow_h
    {| c_key := KClass; c_name := "MainWindow";
       c_bases := [ (None, "QMainWindow") ];
       c_body := c_body MainWindow_class |}
    "QMainWindow" (InFunction fn) = false.
Proof. reflexivity. Qed.

End AccessFacts.

(** ** Calls of the constructor *)

Section ConstructFacts.
Import Semantics.
Context {O B : Type}.
Variable body : addr -> ptr -> gmap addr O -> MainWindow B * gmap addr O.

Lemma resolve_no_argument : resolve MainWindow_class [] = Some [ VPtr null ].
Proof. reflexivity. Qed.

Lemma resolve_one_pointer p :
  resolve MainWindow_class [ VPtr p ] = Some [ VPtr p ].
Proof. reflexivity. Qed.

Lemma construct_runs_body this parent h :
  construct body this (args_of parent) h
  = Some (body this (default null parent) h).
Proof. destruct parent as [p | ]; reflexivity. Qed.

(** Calls that do not fit the declaration are not calls of it. *)
Lemma construct_rejects_integer this z h :
  construct body this [ VInt z ] h = None.
Proof. reflexivity. Qed.

Lemma construct_rejects_two this a b h :
  construct body this [ a; b ] h = None.
Proof.
  unfold construct, resolve. destruct a; reflexivity.
Qed.

(** Binding gives every parameter a value. *)
Lemma bind_args_length ps : forall args vs,
  bind_args ps args = Some vs -> length vs = length ps.
Proof.
  induction ps as [ | p ps IH ]; intros args vs Hb.
  - destruct args; [ | discriminate ]. now inversion Hb.
  - destruct args as [ | a args ]; cbn in Hb.
    + destruct (p_default p) as [ e | ]; [ | discriminate ].
      destruct (eval_default (p_type p) e) as [ v | ]; [ | discriminate ].
      destruct (bind_args ps []) as [ vs' | ] eqn:E; [ | discriminate ].
      inversion Hb; subst. cbn. f_equal. now apply (IH []).
    + destruct (accepts (p_type p) a); [ | discriminate ].
      destruct (bind_args ps args) as [ vs' | ] eqn:E; [ | discriminate ].
      inversion Hb; subst. cbn. f_equal. now apply (IH args).
Qed.

End ConstructFacts.

(** Whatever the body yields, a call that fits the declaration yields
    it. *)
Lemma call_runs_body {O R : Type}
    (body : Semantics.addr -> Semantics.ptr -> gmap Semantics.addr O -> R)
    this parent h :
  Semantics.call_constructor body this (Semantics.args_of parent) h
  = Some (body this (default Semantics.null parent) h).
Proof. destruct parent as [p | ]; reflexivity. Qed.

Lemma construct_is_call {O B : Type}
    (body : Semantics.addr -> Semantics.ptr -> gmap Semantics.addr O
            -> Semantics.MainWindow B * gmap Semantics.addr O)
    this args h :
  Semantics.construct body this args h
  = Semantics.call_constructor body this args h.
Proof. reflexivity. Qed.

(** In the toolkit with object trees, a window whose constructor hands the
    parent on joins no parent when it is constructed without argument. *)
Lemma QtLike_no_argument_no_parent this h :
  Semantics.construct QtLike.forwarding_body this [] h
  = Some ({| Semantics.base := []; Semantics.settingswindow := None |}, h).
Proof. reflexivity. Qed.

(** ** Destruction *)

Section DestroyFacts.
Import Semantics.
Context {O B : Type}.
Variable dtor : B -> gmap addr O -> gmap addr O.

Lemma destroy_is_base_dtor (w : MainWindow B) (h : gmap addr O) :
  destroy dtor w h = Some (dtor (base w) h).
Proof. reflexivity. Qed.

(** What the base-class destructor leaves alone, destruction leaves
    alone. *)
Lemma destroy_frame (w : MainWindow B) (h : gmap addr O) (a : addr) :
  dtor (base w) h !! a = h !! a ->
  exists h', destroy dtor w h = Some h' /\ h' !! a = h !! a.
Proof. intros Hframe. exists (dtor (base w) h). split; [ reflexivity | exact Hframe ]. Qed.

End DestroyFacts.

(** ** Inclusion *)

Section IncludeFacts.
Import Preprocessor.

Lemma process_keeps_marks file body : forall st x,
  In x (once st) -> In x (once (process file body st)).
Proof.
  induction body as [ | i rest IH ]; intros st x Hx; [ exact Hx | ].
  destruct i; cbn; apply IH; cbn; auto.
Qed.

Lemma process_marks_file file body : forall st,
  existsb is_pragma_once body = true ->
  In file (once (process file body st)).
Proof.
  induction body as [ | i rest IH ]; intros st Hp; [ discriminate | ].
  destruct i; cbn in *;
    try (apply IH; exact Hp).
  apply process_keeps_marks. cbn. now left.
Qed.

Lemma marked_is_skipped file body st :
  In file (once st) -> include file body st = st.
Proof.
  intros Hin. unfold include.
  replace (existsb (String.eqb file) (once st)) with true; [ reflexivity | ].
  symmetry. apply existsb_exists. exists file. split; [ exact Hin | ].
  apply String.eqb_refl.
Qed.

Lemma include_marks_file file body st :
  existsb is_pragma_once body = true ->
  In file (once (include file body st)).
Proof.
  intros Hp. unfold include.
  destruct (existsb (String.eqb file) (once st)) eqn:E.
  - apply existsb_exists in E. destruct E as [x [Hx Heq]].
    apply String.eqb_eq in Heq. now subst x.
  - now apply process_marks_file.
Qed.

(** A guarded header read again changes nothing. *)
Lemma include_n_guarded file body st n :
  existsb is_pragma_once body = true ->
  include_n (S n) file body st = include file body st.
Proof.
  intros Hp. cbn.
  assert (Hin : In file (once (include file body st)))
    by now apply include_marks_file.
  revert Hin. generalize (include file body st) as st1.
  induction n as [ | n IH ]; intros st1 Hin; [ reflexivity | ].
  cbn. rewrite marked_is_skipped by exact Hin. now apply IH.
Qed.

(** Without the guard the second inclusion defines the class again. *)
Lemma unguarded_redefines :
  length (definitions_of "MainWindow"
            (seen (include_n 2 "mainwindow.h" (unguarded mainwindow_h) start)))
  = 2%nat.
Proof. reflexivity. Qed.

End IncludeFacts.

(** * The claims *)

Import Semantics.

(** C1, as amended.  [MainWindow] itself declares exactly one public member,
    a constructor whose only parameter, the parent widget, has a default;
    it declares no public field and no public method.  What code using the
    class can reach is that constructor followed by the public members
    inherited from the public base [QMainWindow]. *)
Theorem C1_declared_public_interface :
  public_members MainWindow_class = [ MainWindow_ctor ]
  /\ constructors MainWindow_class
     = [ [ Param (TPtr (TNamed "QWidget")) "parent" (Some (EInt 0)) ] ]
  /\ List.filter is_field (public_members MainWindow_class) = []
  /\ List.filter is_method (public_members MainWindow_class) = []
  /\ forall base_public,
       Access.public_interface base_public MainWindow_class
       = MainWindow_ctor
         :: List.filter Access.inheritable (base_public "QMainWindow").
Proof.
  repeat split. apply public_interface_MainWindow.
Qed.

(** C1 as stated fails: with a base class that has a public method, that
    method is available on every [MainWindow] next to the constructor. *)
Lemma C1_inherited_method_is_available :
  Access.public_interface QtLike.base_public MainWindow_class
  = [ MainWindow_ctor; QtLike.setCentralWidget ]
  /\ Access.public_interface QtLike.base_public MainWindow_class
     <> [ MainWindow_ctor ].
Proof.
  rewrite public_interface_MainWindow. split; [ reflexivity | discriminate ].
Qed.

(** C2.  The class declares exactly one data member, the pointer
    [SettingsWindow *settingswindow], and declares it private: code can name
    it exactly when it stands in a member of [MainWindow], so no function
    outside the class can.  A [MainWindow] value is its base part and this
    one pointer, nothing else. *)
Theorem C2_one_private_pointer_member :
  data_members MainWindow_class
  = [ (Private, Field (TPtr (TNamed "SettingsWindow")) "settingswindow") ]
  /\ static_members MainWindow_class = []
  /\ Access.access_of MainWindow_class "settingswindow" = Some Private
  /\ (forall ctx,
        Access.can_name mainwindow_h MainWindow_class "settingswindow" ctx
        = Access.in_class "MainWindow" ctx)
  /\ (forall fn,
        Access.can_name mainwindow_h MainWindow_class "settingswindow"
                        (Access.InFunction fn) = false)
  /\ (forall (B : Type) (w : MainWindow B), of_pair (to_pair w) = w)
  /\ (forall (B : Type) (p : B * ptr), to_pair (of_pair p) = p).
Proof.
  repeat split.
  - apply settingswindow_access.
  - destruct w; reflexivity.
  - destruct p; reflexivity.
Qed.

(** C3.  [QMainWindow] is the one base of [MainWindow] and a public one, so
    a [MainWindow] converts to its base from every context, and the
    conversion is a total function that yields the base part. *)
Theorem C3_MainWindow_is_a_QMainWindow :
  bases MainWindow_class = [ (Public, "QMainWindow") ]
  /\ (forall ctx,
        Access.converts_to_base mainwindow_h MainWindow_class "QMainWindow" ctx
        = true)
  /\ (forall (B : Type) (w : MainWindow B), exists q : B, upcast w = q)
  /\ (forall (B : Type) (q : B) (p : ptr), upcast {| base := q; settingswindow := p |} = q).
Proof.
  repeat split. intros B w. exists (base w). reflexivity.
Qed.

(** C4, as amended.  The constructor is the only operation the class
    declares.  It declares no result and no exception specification; the
    declaration therefore promises nothing about exceptions, and the
    constructor is potentially throwing.  A call with or without the parent
    always resolves and yields what the body yields, the object or an
    exception. *)
Theorem C4_declared_failure_modes :
  operations MainWindow_class = [ MainWindow_ctor ]
  /\ Forall (fun m => result_type m = None /\ exception_spec m = None)
            (operations MainWindow_class)
  /\ Forall (fun m => potentially_throwing m = true)
            (operations MainWindow_class)
  /\ forall (O R : Type) (body : addr -> ptr -> gmap addr O -> R)
            (this : addr) (parent : option ptr) (h : gmap addr O),
       call_constructor body this (args_of parent) h
       = Some (body this (default null parent) h).
Proof.
  split; [ reflexivity | split; [ | split ] ].
  - repeat constructor.
  - repeat constructor.
  - intros. apply call_runs_body.
Qed.

(** C4 as stated fails: nothing in the declaration keeps the body from
    throwing, and a call whose body finds no memory ends with an
    exception, not with an object. *)
Lemma C4_constructor_may_throw :
  potentially_throwing MainWindow_ctor = true
  /\ call_constructor QtLike.out_of_memory_body 2%positive [] QtLike.parent_only
     = Some (Thrown "std::bad_alloc")
  /\ forall r,
       call_constructor QtLike.out_of_memory_body 2%positive []
                        QtLike.parent_only
       <> Some (Returned r).
Proof.
  split; [ reflexivity | split; [ reflexivity | ] ].
  intros r. cbn. discriminate.
Qed.

(** C5.  [SettingsWindow] is introduced by a forward declaration and never
    defined, so it stays incomplete; the header uses it in one place only,
    as the pointee of the private member [settingswindow] of [MainWindow],
    a use that needs no definition. *)
Theorem C5_SettingsWindow_is_opaque :
  forward_classes mainwindow_h = [ "SettingsWindow" ]
  /\ find_class mainwindow_h "SettingsWindow" = None
  /\ is_complete mainwindow_h "SettingsWindow" = false
  /\ Uses.uses_of mainwindow_h "SettingsWindow"
     = [ Uses.AsField "MainWindow" Private "settingswindow"
                      (TPtr (TNamed "SettingsWindow")) ]
  /\ Uses.needs_complete (TPtr (TNamed "SettingsWindow")) = None.
Proof. repeat split. Qed.

(** C6, as amended.  The header holds directives, one forward declaration
    and one class: no free function, no variable at namespace scope, no
    static member.  It gives construction no effect of its own: a call
    yields exactly what the constructor's body, which is not in the header,
    yields, and with it the state that body leaves. *)
Theorem C6_no_external_interfaces :
  free_functions mainwindow_h = []
  /\ global_variables mainwindow_h = []
  /\ static_members MainWindow_class = []
  /\ map kind_of mainwindow_h
     = [ Directive; Directive; Directive; ForwardDeclaration; ClassDefinition ]
  /\ forall (O R : Type) (body : addr -> ptr -> gmap addr O -> R)
            (this : addr) (parent : option ptr) (h : gmap addr O),
       call_constructor body this (args_of parent) h
       = Some (body this (default null parent) h).
Proof.
  repeat split. intros. apply call_runs_body.
Qed.

(** C6 as stated fails: a body that hands the parent to the base-class
    constructor fits the declaration, and in a toolkit that keeps object
    trees constructing a window with a parent then changes the parent, an
    object outside the window. *)
Lemma C6_construction_changes_the_parent :
  exists w h',
    call_constructor QtLike.forwarding_body
                     2%positive [ VPtr (Some 1%positive) ] QtLike.parent_only
    = Some (w, h')
    /\ QtLike.parent_only !! 1%positive = Some (QtLike.QObject [])
    /\ h' !! 1%positive = Some (QtLike.QObject [ 2%positive ])
    /\ h' <> QtLike.parent_only.
Proof.
  exists {| base := []; settingswindow := null |}.
  exists (alter (QtLike.add_child 2%positive) 1%positive QtLike.parent_only).
  split; [ reflexivity | ].
  assert (Hbefore : QtLike.parent_only !! 1%positive = Some (QtLike.QObject []))
    by (vm_compute; reflexivity).
  assert (Hafter :
            alter (QtLike.add_child 2%positive) 1%positive QtLike.parent_only
            !! 1%positive = Some (QtLike.QObject [ 2%positive ]))
    by (vm_compute; reflexivity).
  split; [ exact Hbefore | split; [ exact Hafter | ] ].
  intros Heq. rewrite Heq, Hbefore in Hafter. discriminate.
Qed.

(** C7.  The header has 28 lines.  Its tokens are those of two include
    directives and a [#pragma once], the forward declaration of
    [SettingsWindow] and the definition of [MainWindow]; no member function
    has a body, in the class or outside it. *)
Theorem C7_header_is_one_class_declaration :
  length Source.mainwindow_h = 28%nat
  /\ Lexer.tokens Source.mainwindow_h = Printer.tokens mainwindow_h
  /\ map kind_of mainwindow_h
     = [ Directive; Directive; Directive; ForwardDeclaration; ClassDefinition ]
  /\ includes mainwindow_h = [ "QWidget"; "QMainWindow" ]
  /\ forward_classes mainwindow_h = [ "SettingsWindow" ]
  /\ classes mainwindow_h = [ MainWindow_class ]
  /\ defined_inline MainWindow_class = []
  /\ Forall (fun m => member_body m = None) (operations MainWindow_class)
  /\ free_functions mainwindow_h = [].
Proof.
  split; [ reflexivity | split; [ apply mainwindow_h_tokens | ] ].
  repeat split. repeat constructor.
Qed.


(** C9, as amended.  The class declares no destructor, no copy constructor
    and no assignment operator, and its data members need no destructor of
    their own; so the implicit destructor applies, and destroying a
    [MainWindow] changes the state of other objects exactly as the
    destructor of the base part changes it.  For a window whose pointer is
    not null, the object pointed to is unchanged by the destruction
    whenever the base-class destructor leaves it unchanged. *)
Theorem C9_implicit_destructor :
  forall (O B : Type) (dtor : B -> gmap addr O -> gmap addr O)
         (w : MainWindow B) (h : gmap addr O) (a : addr),
    settingswindow w = Some a ->
    dtor (base w) h !! a = h !! a ->
    declared_dtor MainWindow_class = None
    /\ declared_copy_ctor MainWindow_class = None
    /\ declared_copy_assign MainWindow_class = None
    /\ forallb field_trivial (data_members MainWindow_class) = true
    /\ destroy dtor w h = Some (dtor (base w) h)
    /\ exists h', destroy dtor w h = Some h' /\ h' !! a = h !! a.
Proof.
  intros O B dtor w h a _ Hframe.
  repeat split. now apply destroy_frame.
Qed.

Lemma C9_implicit_destructor_witness :
  settingswindow QtLike.window_without_children = Some 7%positive
  /\ QtLike.QMainWindow_dtor (base QtLike.window_without_children)
                             QtLike.settings_only !! 7%positive
     = QtLike.settings_only !! 7%positive
  /\ declared_dtor MainWindow_class = None
  /\ declared_copy_ctor MainWindow_class = None
  /\ declared_copy_assign MainWindow_class = None
  /\ forallb field_trivial (data_members MainWindow_class) = true
  /\ destroy QtLike.QMainWindow_dtor QtLike.window_without_children
             QtLike.settings_only
     = Some (QtLike.QMainWindow_dtor (base QtLike.window_without_children)
                                     QtLike.settings_only)
  /\ exists h',
       destroy QtLike.QMainWindow_dtor QtLike.window_without_children
               QtLike.settings_only = Some h'
       /\ h' !! 7%positive = QtLike.settings_only !! 7%positive.
Proof.
  split; [ reflexivity | split; [ reflexivity | ] ].
  apply (C9_implicit_destructor QtLike.qobject (list addr)
           QtLike.QMainWindow_dtor QtLike.window_without_children
           QtLike.settings_only 7%positive); reflexivity.
Defined.

(** C9 as stated fails: where the base-class destructor destroys the
    window's children and the settings window is one of them, destroying
    the window destroys the object its pointer refers to. *)
Lemma C9_child_is_destroyed_with_the_window :
  settingswindow QtLike.window_owning_settings = Some 7%positive
  /\ QtLike.settings_only !! 7%positive = Some (QtLike.QObject [])
  /\ exists h',
       destroy QtLike.QMainWindow_dtor QtLike.window_owning_settings
               QtLike.settings_only = Some h'
       /\ h' !! 7%positive = None
       /\ h' !! 7%positive <> QtLike.settings_only !! 7%positive.
Proof.
  assert (Hbefore : QtLike.settings_only !! 7%positive = Some (QtLike.QObject []))
    by (vm_compute; reflexivity).
  split; [ reflexivity | split; [ exact Hbefore | ] ].
  exists (QtLike.QMainWindow_dtor [ 7%positive ] QtLike.settings_only).
  split; [ reflexivity | ].
  assert (Hafter :
            QtLike.QMainWindow_dtor [ 7%positive ] QtLike.settings_only
            !! 7%positive = None)
    by (vm_compute; reflexivity).
  split; [ exact Hafter | ].
  rewrite Hafter, Hbefore. discriminate.
Qed.

(** C10.  The header starts with [#pragma once]: after any number n >= 1 of
    inclusions a translation unit has seen what it has seen after one, and
    [MainWindow] is defined once. *)
Theorem C10_pragma_once_idempotent :
  forall n : nat,
    (1 <= n)%nat ->
    Preprocessor.seen
      (Preprocessor.include_n n "mainwindow.h" mainwindow_h Preprocessor.start)
    = Preprocessor.seen
        (Preprocessor.include_n 1 "mainwindow.h" mainwindow_h Preprocessor.start)
    /\ length (Preprocessor.definitions_of "MainWindow"
                 (Preprocessor.seen
                    (Preprocessor.include_n n "mainwindow.h" mainwindow_h
                                            Preprocessor.start)))
       = 1%nat.
Proof.
  intros n Hn. destruct n as [ | n ]; [ lia | ].
  rewrite include_n_guarded by reflexivity.
  split; reflexivity.
Qed.

Lemma C10_pragma_once_idempotent_witness :
  (1 <= 3)%nat
  /\ Preprocessor.seen
       (Preprocessor.include_n 3 "mainwindow.h" mainwindow_h Preprocessor.start)
     = Preprocessor.seen
         (Preprocessor.include_n 1 "mainwindow.h" mainwindow_h
                                 Preprocessor.start)
  /\ length (Preprocessor.definitions_of "MainWindow"
               (Preprocessor.seen
                  (Preprocessor.include_n 3 "mainwindow.h" mainwindow_h
                                          Preprocessor.start)))
     = 1%nat.
Proof.
  split; [ lia | apply (C10_pragma_once_idempotent 3); lia ].
Defined.

(** * Further properties *)

(** ** Reading the header into a translation unit *)

Section UnitFacts.
Import Preprocessor.

Lemma classes_app u1 u2 : classes (u1 ++ u2) = (classes u1 ++ classes u2)%list.
Proof.
  induction u1 as [ | i u1 IH ]; [ reflexivity | ].
  destruct i; cbn; rewrite ?IH; reflexivity.
Qed.

Lemma definitions_of_app name u1 u2 :
  definitions_of name (u1 ++ u2)
  = (definitions_of name u1 ++ definitions_of name u2)%list.
Proof. unfold definitions_of. rewrite classes_app. apply List.filter_app. Qed.

(** Reading a header appends what it holds besides the guard, in order. *)
Lemma process_seen file body : forall st,
  seen (process file body st) = (seen st ++ unguarded body)%list.
Proof.
  induction body as [ | i rest IH ]; intros st.
  - cbn. now rewrite app_nil_r.
  - destruct i; cbn; rewrite IH; cbn; rewrite <- ?app_assoc; reflexivity.
Qed.

(** A header that has been read is never read again. *)
Lemma include_n_marked file body n : forall st,
  existsb (String.eqb file) (once st) = true ->
  include_n n file body st = st.
Proof.
  induction n as [ | n IH ]; intros st Hm; [ reflexivity | ].
  cbn. unfold include. rewrite Hm. now apply IH.
Qed.

End UnitFacts.


(** ** Names the header needs *)

Section ScopeFacts.
Import Scope.

Lemma mem_app n l1 l2 : mem n (l1 ++ l2) = mem n l1 || mem n l2.
Proof. apply existsb_app. Qed.

Lemma check_app provides u1 : forall k u2,
  check provides k (u1 ++ u2)
  = match check provides k u1 with
    | Some k' => check provides k' u2
    | None => None
    end.
Proof.
  induction u1 as [ | i u1 IH ]; intros k u2; [ reflexivity | ].
  cbn. destruct (step provides k i); [ apply IH | reflexivity ].
Qed.

Lemma is_defined_toolkit k n :
  mem n (toolkit k) = true -> is_defined k n = true.
Proof. intros H. unfold is_defined. rewrite H. apply orb_true_r. Qed.

Lemma is_known_defined k n : is_defined k n = true -> is_known k n = true.
Proof. intros H. unfold is_known. rewrite H. apply orb_true_r. Qed.

Lemma is_known_declared k n :
  mem n (declared k) = true -> is_known k n = true.
Proof. intros H. unfold is_known. rewrite H. now rewrite orb_true_r. Qed.

(** What the class definition asks of the names around it: [MainWindow]
    defined nowhere yet, its base defined, and the two classes it points to
    known by name. *)
Lemma class_ok_MainWindow k :
  class_ok k MainWindow_class
  = negb (mem "MainWindow" (own k) || mem "MainWindow" (toolkit k))
    && is_defined k "QMainWindow"
    && is_known k "SettingsWindow"
    && is_known k "QWidget".
Proof.
  destruct k as [d o t]. unfold class_ok, is_known, is_defined.
  cbn -[mem].
  change (mem "SettingsWindow" ("MainWindow" :: d))
    with (mem "SettingsWindow" d).
  change (mem "QWidget" ("MainWindow" :: d)) with (mem "QWidget" d).
  rewrite !andb_true_r, !andb_assoc. reflexivity.
Qed.

Lemma existsb_app_false {A} (f : A -> bool) l1 l2 :
  existsb f (l1 ++ l2) = false -> existsb f l1 = false /\ existsb f l2 = false.
Proof. rewrite existsb_app. apply orb_false_elim. Qed.

(** The forward declaration is needed, and it suffices because the member
    is a pointer: without it, or with the settings window held by value,
    the header on its own is ill-formed. *)
Lemma forward_declaration_is_needed :
  well_formed by_name nothing (without_forward mainwindow_h) = false.
Proof. reflexivity. Qed.

Lemma member_by_value_needs_definition :
  well_formed by_name nothing by_value = false.
Proof. reflexivity. Qed.

(** Read twice without its guard, the header defines [MainWindow] twice
    and the unit is ill-formed. *)
Lemma unguarded_is_ill_formed :
  well_formed by_name nothing
    (Preprocessor.seen
       (Preprocessor.include_n 2 "mainwindow.h"
          (Preprocessor.unguarded mainwindow_h) Preprocessor.start))
  = false.
Proof. reflexivity. Qed.

(** A class the unit defines itself may not be defined by a toolkit header
    read before or after. *)
Lemma own_class_clashes_with_toolkit :
  well_formed by_name nothing
    (ClassDef (Class KClass "QWidget" [] []) :: mainwindow_h) = false
  /\ well_formed by_name nothing
       (mainwindow_h ++ [ ClassDef (Class KClass "QWidget" [] []) ]) = false.
Proof. split; reflexivity. Qed.

End ScopeFacts.

(** X1.  The declared constructor has one parameter: a call with two or
    more arguments is rejected, whatever the arguments are and whatever the
    body would do. *)
Theorem X1_constructor_takes_at_most_one_argument :
  forall (O R : Type) (body : addr -> ptr -> gmap addr O -> R)
         (this : addr) (args : list value) (h : gmap addr O),
    (2 <= length args)%nat ->
    call_constructor body this args h = None.
Proof.
  intros O R body this args h Hlen.
  destruct args as [ | a [ | b rest ] ]; cbn in Hlen; try lia.
  unfold call_constructor, resolve. destruct a; reflexivity.
Qed.

Lemma X1_constructor_takes_at_most_one_argument_witness :
  (2 <= length [ VPtr null; VPtr (Some 1%positive) ])%nat
  /\ call_constructor QtLike.forwarding_body 2%positive
                      [ VPtr null; VPtr (Some 1%positive) ] QtLike.parent_only
     = None.
Proof.
  split; [ cbn; lia | ].
  apply (X1_constructor_takes_at_most_one_argument
           QtLike.qobject _ QtLike.forwarding_body 2%positive
           [ VPtr null; VPtr (Some 1%positive) ] QtLike.parent_only).
  cbn. lia.
Defined.

(** X2.  A translation unit that has not read [mainwindow.h] and holds no
    definition of [MainWindow] keeps, after n >= 1 inclusions, the items it
    held, in place, followed once by the header's two include directives,
    its forward declaration and its class; the one definition of
    [MainWindow] among its items is then the header's. *)
Theorem X2_include_into_any_unit :
  forall (st : Preprocessor.state) (n : nat),
    (1 <= n)%nat ->
    existsb (String.eqb "mainwindow.h") (Preprocessor.once st) = false ->
    Preprocessor.definitions_of "MainWindow" (Preprocessor.seen st) = [] ->
    Preprocessor.seen
      (Preprocessor.include_n n "mainwindow.h" mainwindow_h st)
    = (Preprocessor.seen st
       ++ [ Include "QWidget"; Include "QMainWindow";
            ForwardClass "SettingsWindow"; ClassDef MainWindow_class ])%list
    /\ Preprocessor.definitions_of "MainWindow"
         (Preprocessor.seen
            (Preprocessor.include_n n "mainwindow.h" mainwindow_h st))
       = [ MainWindow_class ].
Proof.
  intros st n Hn Hfresh Hnone. destruct n as [ | n ]; [ lia | ].
  rewrite include_n_guarded by reflexivity.
  unfold Preprocessor.include. rewrite Hfresh. rewrite process_seen.
  split; [ reflexivity | ].
  rewrite definitions_of_app, Hnone. reflexivity.
Qed.

Lemma X2_include_into_any_unit_witness :
  (1 <= 2)%nat
  /\ existsb (String.eqb "mainwindow.h") [ "settingswindow.h" ] = false
  /\ Preprocessor.definitions_of "MainWindow"
       [ Include "QWidget"; ClassDef (Class KClass "SettingsWindow"
                                            [ (Some Public, "QWidget") ] []) ]
     = []
  /\ Preprocessor.seen
       (Preprocessor.include_n 2 "mainwindow.h" mainwindow_h
          (Preprocessor.State
             [ "settingswindow.h" ]
             [ Include "QWidget"; ClassDef (Class KClass "SettingsWindow"
                                                  [ (Some Public, "QWidget") ] []) ]))
     = [ Include "QWidget"; ClassDef (Class KClass "SettingsWindow"
                                            [ (Some Public, "QWidget") ] []);
         Include "QWidget"; Include "QMainWindow";
         ForwardClass "SettingsWindow"; ClassDef MainWindow_class ]
  /\ Preprocessor.definitions_of "MainWindow"
       (Preprocessor.seen
          (Preprocessor.include_n 2 "mainwindow.h" mainwindow_h
             (Preprocessor.State
                [ "settingswindow.h" ]
                [ Include "QWidget"; ClassDef (Class KClass "SettingsWindow"
                                                     [ (Some Public, "QWidget") ] []) ])))
     = [ MainWindow_class ].
Proof.
  split; [ lia | split; [ reflexivity | split; [ reflexivity | ] ] ].
  apply (X2_include_into_any_unit
           (Preprocessor.State
              [ "settingswindow.h" ]
              [ Include "QWidget"; ClassDef (Class KClass "SettingsWindow"
                                                   [ (Some Public, "QWidget") ] []) ])
           2); [ lia | reflexivity | reflexivity ].
Defined.

(** X3.  Read n >= 1 times where the class names [k] are known, the
    header passes the check of names: each class is known where the header
    names it, the base is defined where the class derives from it, and
    [MainWindow] is defined once.  This holds provided the toolkit headers
    [<QWidget>] and [<QMainWindow>] define the classes of these names, the
    unit has not itself defined a class that they define, and [MainWindow]
    is defined neither by the unit nor by the toolkit headers.  Afterwards
    [MainWindow] is a class of the unit and [SettingsWindow] is declared. *)
Theorem X3_header_names_are_in_scope :
  forall (provides : string -> list string) (k : Scope.names) (n : nat),
    (1 <= n)%nat ->
    Scope.mem "QWidget" (provides "QWidget") = true ->
    Scope.mem "QMainWindow" (provides "QMainWindow") = true ->
    existsb (fun c => Scope.mem c (Scope.own k))
            (provides "QWidget" ++ provides "QMainWindow")%list = false ->
    Scope.mem "MainWindow"
              (provides "QMainWindow" ++ provides "QWidget"
               ++ Scope.toolkit k ++ Scope.own k)%list = false ->
    Scope.check provides k
      (Preprocessor.seen
         (Preprocessor.include_n n "mainwindow.h" mainwindow_h
                                 Preprocessor.start))
    = Some {| Scope.declared := "SettingsWindow" :: Scope.declared k
            ; Scope.own := "MainWindow" :: Scope.own k
            ; Scope.toolkit :=
                (provides "QMainWindow" ++ provides "QWidget"
                 ++ Scope.toolkit k)%list |}.
Proof.
  intros provides k n Hn HW HM Hclash Hnew.
  destruct n as [ | n ]; [ lia | ].
  rewrite include_n_guarded by reflexivity.
  change (Preprocessor.seen
            (Preprocessor.include "mainwindow.h" mainwindow_h Preprocessor.start))
    with [ Include "QWidget"; Include "QMainWindow";
           ForwardClass "SettingsWindow"; ClassDef MainWindow_class ].
  apply existsb_app_false in Hclash. destruct Hclash as [HcW HcM].
  rewrite !mem_app in Hnew.
  apply orb_false_elim in Hnew. destruct Hnew as [HnM Hnew].
  apply orb_false_elim in Hnew. destruct Hnew as [HnW Hnew].
  apply orb_false_elim in Hnew. destruct Hnew as [HnT HnO].
  cbn [Scope.check Scope.step Scope.declared Scope.own Scope.toolkit].
  rewrite HcW. cbn [Scope.declared Scope.own Scope.toolkit].
  rewrite HcM. cbn [Scope.declared Scope.own Scope.toolkit].
  rewrite class_ok_MainWindow. cbn [Scope.declared Scope.own Scope.toolkit].
  rewrite HnO, !mem_app, HnM, HnW, HnT.
  rewrite is_defined_toolkit
    by (cbn [Scope.toolkit]; rewrite mem_app, HM; reflexivity).
  rewrite is_known_declared by reflexivity.
  rewrite is_known_defined
    by (apply is_defined_toolkit; cbn [Scope.toolkit];
        rewrite !mem_app, HW; apply orb_true_r).
  reflexivity.
Qed.

Lemma X3_header_names_are_in_scope_witness :
  (1 <= 2)%nat
  /\ Scope.mem "QWidget" (Scope.by_name "QWidget") = true
  /\ Scope.mem "QMainWindow" (Scope.by_name "QMainWindow") = true
  /\ existsb (fun c => Scope.mem c [ "SettingsWindow" ])
             (Scope.by_name "QWidget" ++ Scope.by_name "QMainWindow")%list
     = false
  /\ Scope.mem "MainWindow"
               (Scope.by_name "QMainWindow" ++ Scope.by_name "QWidget"
                ++ [ "QWidget"; "QApplication" ] ++ [ "SettingsWindow" ])%list
     = false
  /\ Scope.check Scope.by_name
       (Scope.Names [] [ "SettingsWindow" ] [ "QWidget"; "QApplication" ])
       (Preprocessor.seen
          (Preprocessor.include_n 2 "mainwindow.h" mainwindow_h
                                  Preprocessor.start))
     = Some (Scope.Names [ "SettingsWindow" ]
                         [ "MainWindow"; "SettingsWindow" ]
                         [ "QMainWindow"; "QWidget"; "QWidget"; "QApplication" ]).
Proof.
  repeat (split; [ first [ lia | reflexivity ] | ]).
  apply (X3_header_names_are_in_scope
           Scope.by_name
           (Scope.Names [] [ "SettingsWindow" ] [ "QWidget"; "QApplication" ])
           2);
    first [ lia | reflexivity ].
Defined.
